(** * github3.repos.commit : the RepoCommit model object

    A shallow embedding of [src/github3/repos/commit.py].  Python values that
    come out of a decoded JSON payload are the inductive type [json]; a Python
    [dict] is an association list read through [dict_get] (first binding
    wins); a Python [str] is a list of characters.  Exceptions are the
    [Raise] side of [result].  Methods that talk to the network run in the
    [IO] monad, which threads the log of the requests sent so far and reads
    the answers from the session.

    JSON floating-point numbers are left out of [json]. *)

From Stdlib Require Import List Ascii String ZArith Bool Lia.
From Stdlib Require Import Floats.SpecFloat.
Import ListNotations.
Local Open Scope Z_scope.

(** ** Python values *)

Definition str := list ascii.
Definition bytes := list ascii.

Notation "$ s" := (list_ascii_of_string s) (at level 1, format "$ s").

Unset Elimination Schemes.
Inductive json : Type :=
| JNull
| JBool (b : bool)
| JInt (n : Z)
| JStr (s : str)
| JList (l : list json)
| JDict (d : list (str * json)).
Set Elimination Schemes.

Definition dict := list (str * json).

Definition str_eqb (a b : str) : bool :=
  if list_eq_dec ascii_dec a b then true else false.

Fixpoint dict_get (d : dict) (k : str) : option json :=
  match d with
  | [] => None
  | (k', v) :: d' => if str_eqb k' k then Some v else dict_get d' k
  end.

Definition dict_has (d : dict) (k : str) : bool :=
  match dict_get d k with Some _ => true | None => false end.

(** Python truth value of a decoded JSON value ([if x:]). *)
Definition truthy (v : json) : bool :=
  match v with
  | JNull => false
  | JBool b => b
  | JInt n => negb (n =? 0)
  | JStr s => match s with [] => false | _ => true end
  | JList l => match l with [] => false | _ => true end
  | JDict d => match d with [] => false | _ => true end
  end.

Definition int_of_bool (b : bool) : Z := if b then 1 else 0.

(** Python [==] on decoded JSON values.  [bool] is a subclass of [int], so
    [True == 1]; lists compare element by element, dicts by keys. *)
Fixpoint py_eq (a b : json) {struct a} : bool :=
  match a, b with
  | JNull, JNull => true
  | JBool x, JBool y => Bool.eqb x y
  | JBool x, JInt n => int_of_bool x =? n
  | JInt n, JBool y => n =? int_of_bool y
  | JInt n, JInt m => n =? m
  | JStr s, JStr t => str_eqb s t
  | JList l, JList m =>
      (fix go (l : list json) (m : list json) {struct l} : bool :=
         match l, m with
         | [], [] => true
         | x :: l', y :: m' => py_eq x y && go l' m'
         | _, _ => false
         end) l m
  | JDict d, JDict e =>
      (fix sub (d : list (str * json)) {struct d} : bool :=
         match d with
         | [] => true
         | (k, v) :: d' =>
             match dict_get e k with
             | Some w => py_eq v w
             | None => false
             end && sub d'
         end) d
      && forallb (fun kv => dict_has d (fst kv)) e
  | _, _ => false
  end.

(** ** Exceptions *)

Inductive exn : Type :=
| TypeError
| AttributeError
| KeyError
| ValueError
| OverflowError
| HTTPError (status_code : Z)
| OtherError (tag : str).

Inductive result (A : Type) : Type :=
| Ok (a : A)
| Raise (e : exn).
Arguments Ok {A} a.
Arguments Raise {A} e.

Definition rbind {A B} (r : result A) (k : A -> result B) : result B :=
  match r with
  | Ok a => k a
  | Raise e => Raise e
  end.

Declare Scope res_scope.
Delimit Scope res_scope with res.
Notation "x <- r ;; k" := (rbind r (fun x => k))
  (at level 61, r at next level, right associativity) : res_scope.
Notation "' p <- r ;; k" := (rbind r (fun p => k))
  (at level 61, p pattern, r at next level, right associativity) : res_scope.

Definition returns {A} (r : result A) : bool :=
  match r with Ok _ => true | Raise _ => false end.

(** ** Attribute helpers of the model base class *)

(** Modelled from the spec: [GitHubCore._get_attribute] lives in the base
    model module, outside this file.  It reads a key of the payload and
    yields the fallback (null unless given) when the key is missing. *)
Definition _get_attribute (data : dict) (attribute : str) (fallback : json)
  : json :=
  match dict_get data attribute with
  | Some v => v
  | None => fallback
  end.

(** An attribute that holds either an instance of a model class or the raw
    payload value that was found instead (null when nothing was there). *)
Inductive attr (T : Type) : Type :=
| Raw (v : json)
| Inst (t : T).
Arguments Raw {T} v.
Arguments Inst {T} t.

(** Modelled from the spec: [GitHubCore._class_attribute] lives in the base
    model module.  It hands the payload fragment to the constructor [cl] and
    returns null when the fragment is absent. *)
Definition _class_attribute {T} (data : dict) (attribute : str)
  (cl : json -> result T) : result (attr T) :=
  match _get_attribute data attribute JNull with
  | JNull => Ok (Raw JNull)
  | v => rbind (cl v) (fun t => Ok (Inst t))
  end.

(** [d[k]] on a dict. *)
Definition dict_getitem (d : dict) (k : str) : result json :=
  match dict_get d k with
  | Some v => Ok v
  | None => Raise KeyError
  end.

(** [v.get(k)]: the method exists on dicts only. *)
Definition py_get (v : json) (k : str) : result json :=
  match v with
  | JDict d => Ok (_get_attribute d k JNull)
  | _ => Raise AttributeError
  end.

(** ** The RepoCommit object *)

Section RepoCommit.

(** The collaborators of the class: the sub-object constructors and the
    initialiser of the parent class, which leaves the resource URL in
    [_api]. *)
Variables ShortUser ShortCommit : Type.
Variable ShortUser_new : json -> result ShortUser.
Variable ShortCommit_new : json -> result ShortCommit.
Variable ShortCommit_message : ShortCommit -> option json.
Variable BaseCommit_update_attributes : dict -> result str.

Record RepoCommit : Type := mkRepoCommit {
  _api : str;
  author : attr ShortUser;
  committer : attr ShortUser;
  commit : attr ShortCommit;
  sha : json;
  additions : json;
  deletions : json;
  total : json;
  files : json;
  _uniq : json;
  message : json
}.

(** [getattr(self.commit, 'message', None)]. *)
Definition getattr_message (c : attr ShortCommit) : json :=
  match c with
  | Inst t => match ShortCommit_message t with Some m => m | None => JNull end
  | Raw _ => JNull
  end.

Local Open Scope res_scope.

(** Lines 56-60: the three counters start at 0 and are overwritten only
    under [if stats:]. *)
Definition update_stats (commit : dict) : result (json * json * json) :=
  let additions := JInt 0 in
  let deletions := JInt 0 in
  let total := JInt 0 in
  let stats := _get_attribute commit $"stats" JNull in
  if truthy stats then
    s1 <- dict_getitem commit $"stats" ;;
    additions <- py_get s1 $"additions" ;;
    s2 <- dict_getitem commit $"stats" ;;
    deletions <- py_get s2 $"deletions" ;;
    s3 <- dict_getitem commit $"stats" ;;
    total <- py_get s3 $"total" ;;
    Ok (additions, deletions, total)
  else Ok (additions, deletions, total).

Definition _update_attributes (commit : dict) : result RepoCommit :=
  api <- BaseCommit_update_attributes commit ;;
  author <- _class_attribute commit $"author" ShortUser_new ;;
  committer <- _class_attribute commit $"committer" ShortUser_new ;;
  commit_ <- _class_attribute commit $"commit" ShortCommit_new ;;
  let sha := _get_attribute commit $"sha" JNull in
  '(additions, deletions, total) <- update_stats commit ;;
  let files := _get_attribute commit $"files" (JList []) in
  let _uniq := sha in
  let message := getattr_message commit_ in
  Ok (mkRepoCommit api author committer commit_ sha
        additions deletions total files _uniq message).

End RepoCommit.

Arguments mkRepoCommit {ShortUser ShortCommit}.
Arguments _api {ShortUser ShortCommit} _.
Arguments author {ShortUser ShortCommit} _.
Arguments committer {ShortUser ShortCommit} _.
Arguments commit {ShortUser ShortCommit} _.
Arguments sha {ShortUser ShortCommit} _.
Arguments additions {ShortUser ShortCommit} _.
Arguments deletions {ShortUser ShortCommit} _.
Arguments total {ShortUser ShortCommit} _.
Arguments files {ShortUser ShortCommit} _.
Arguments _uniq {ShortUser ShortCommit} _.
Arguments message {ShortUser ShortCommit} _.

(** ** The HTTP side *)

Record request : Type := mkRequest {
  req_url : str;
  req_headers : list (str * str)
}.

(** What the methods read of a response: the status code, the raw body and
    the outcome of [response.json()]. *)
Record response : Type := mkResponse {
  status_code : Z;
  content : bytes;
  json_body : result json
}.

(** A computation that may send requests: it extends the log of the requests
    sent and ends in a value or an exception. *)
Definition IO (A : Type) : Type := list request -> result A * list request.

Definition ret {A} (a : A) : IO A := fun log => (Ok a, log).

Definition bind {A B} (m : IO A) (k : A -> IO B) : IO B :=
  fun log =>
    match m log with
    | (Ok a, log') => k a log'
    | (Raise e, log') => (Raise e, log')
    end.

Definition lift {A} (r : result A) : IO A := fun log => (r, log).

Declare Scope io_scope.
Delimit Scope io_scope with io.
Notation "x <- m ;; k" := (bind m (fun x => k))
  (at level 61, m at next level, right associativity) : io_scope.

(** Running a method from an empty log. *)
Definition run {A} (m : IO A) : result A * list request := m [].

(** Modelled from the spec: [GitHubCore._build_url] lives in the base model
    module.  It appends a path segment to a base resource URL. *)
Definition _build_url (segment : str) (base_url : str) : str :=
  base_url ++ $"/" ++ segment.

(** Modelled from the spec: [GitHubCore._boolean] lives in the base model
    module.  The first code means yes, the second means no, and every other
    status surfaces as the client's error. *)
Definition _boolean (resp : response) (true_code false_code : Z)
  : result bool :=
  if status_code resp =? true_code then Ok true
  else if status_code resp =? false_code then Ok false
  else Raise (HTTPError (status_code resp)).

(** Modelled from the spec: [GitHubCore._json] lives in the base model
    module.  It expects exactly the given status, anything else is an error;
    an empty body decodes to null. *)
Definition _json (resp : response) (code : Z) : result json :=
  if status_code resp =? code then
    match content resp with
    | [] => Ok JNull
    | _ => json_body resp
    end
  else Raise (HTTPError (status_code resp)).

(** Modelled from the spec: [GitHubCore._instance_or_null] lives in the base
    model module.  A falsy body gives null instead of an empty object. *)
Definition _instance_or_null {T} (cl : json -> result T) (j : json)
  : result (option T) :=
  if truthy j then rbind (cl j) (fun t => Ok (Some t)) else Ok None.

(** *** Python's [int()] on the values a caller can pass *)

(** A string given by the code points of its characters, whatever the
    plane.  A [str] of the payload has one element per character too, and
    holds the characters below U+0100. *)
Definition text := list N.

Definition text_of_str (s : str) : text := map N_of_ascii s.

(** What a caller can hand to [int()]: a value of the JSON kind, a string of
    any characters, or a float, given by its IEEE 754 value.  Byte strings
    and objects of classes with an [__int__] of their own are left out.
    The behaviour is that of Python 3.6 and later, where digits may be
    grouped with single underscores. *)
Inductive pyobj : Type :=
| OJson (v : json)
| OText (t : text)
| OFloat (f : spec_float).

Coercion OJson : json >-> pyobj.

(** The characters from U+007F on that the interpreter counts as white space
    (Unicode 14.0). *)
Definition unicode_spaces : list N :=
  [133; 160; 5760; 8192; 8193; 8194; 8195; 8196; 8197; 8198; 8199; 8200;
   8201; 8202; 8232; 8233; 8239; 8287; 12288]%N.

(** The code point of the digit zero of every run of ten decimal digits
    from U+007F on (Unicode 14.0). *)
Definition unicode_zeros : list N :=
  [1632; 1776; 1984; 2406; 2534; 2662; 2790; 2918; 3046; 3174; 3302; 3430;
   3558; 3664; 3792; 3872; 4160; 4240; 6112; 6160; 6470; 6608; 6784; 6800;
   6992; 7088; 7232; 7248; 42528; 43216; 43264; 43472; 43504; 43600; 44016;
   65296; 66720; 68912; 69734; 69872; 69942; 70096; 70384; 70736; 70864;
   71248; 71360; 71472; 71904; 72016; 72784; 73040; 73120; 92768; 92864;
   93008; 120782; 120792; 120802; 120812; 120822; 123200; 123632; 125264;
   130032]%N.

Definition unicode_space (c : N) : bool := existsb (N.eqb c) unicode_spaces.

Definition unicode_decimal (c : N) : option N :=
  match find (fun z => (z <=? c) && (c <? z + 10))%N unicode_zeros with
  | Some z => Some (c - z)%N
  | None => None
  end.

(** Before it reads a string, [int()] rewrites it to ASCII: the characters
    below U+007F stay, a Unicode blank becomes a space, a Unicode decimal
    digit becomes its ASCII digit, and anything else becomes [?]. *)
Definition to_ascii (c : N) : N :=
  if (c <? 127)%N then c
  else if unicode_space c then 32%N
  else match unicode_decimal c with
       | Some d => (48 + d)%N
       | None => 63%N
       end.

(** The blanks the reader of the ASCII text skips. *)
Definition is_space (c : N) : bool :=
  ((9 <=? c) && (c <=? 13) || (c =? 32))%N.

Definition digit_val (c : N) : option Z :=
  if ((48 <=? c) && (c <=? 57))%N then Some (Z.of_N c - 48) else None.

Fixpoint lstrip (s : text) : text :=
  match s with
  | c :: s' => if is_space c then lstrip s' else s
  | [] => []
  end.

Definition strip (s : text) : text := rev (lstrip (rev (lstrip s))).

(** Digits, with single underscores allowed between two digits.
    [after_digit] tells whether the previous character was a digit. *)
Fixpoint parse_digits (acc : Z) (after_digit : bool) (s : text) : option Z :=
  match s with
  | [] => if after_digit then Some acc else None
  | c :: s' =>
      match digit_val c with
      | Some d => parse_digits (10 * acc + d) true s'
      | None =>
          if (c =? 95)%N && after_digit
          then match s' with
               | [] => None
               | _ => parse_digits acc false s'
               end
          else None
      end
  end.

Definition int_of_chars (t : text) : result Z :=
  let parse body :=
    match parse_digits 0 false body with
    | Some n => Ok n
    | None => Raise ValueError
    end in
  match strip (map to_ascii t) with
  | [] => Raise ValueError
  | c :: body =>
      if (c =? 45)%N then rbind (parse body) (fun n => Ok (- n))
      else if (c =? 43)%N then parse body
      else parse (c :: body)
  end.

(** [int()] of a float drops the fraction; infinities and NaN have no
    integer. *)
Definition int_of_float (f : spec_float) : result Z :=
  match f with
  | S754_zero _ => Ok 0
  | S754_infinity _ => Raise OverflowError
  | S754_nan => Raise ValueError
  | S754_finite s m e =>
      let a := if 0 <=? e then Z.pos m * 2 ^ e else Z.pos m / 2 ^ (- e) in
      Ok (if s then - a else a)
  end.

Definition py_int (v : pyobj) : result Z :=
  match v with
  | OJson (JInt n) => Ok n
  | OJson (JBool b) => Ok (int_of_bool b)
  | OJson (JStr s) => int_of_chars (text_of_str s)
  | OJson JNull | OJson (JList _) | OJson (JDict _) => Raise TypeError
  | OText t => int_of_chars t
  | OFloat f => int_of_float f
  end.

(** *** The lazy paginated sequence *)

(** What [_iter] hands back: nothing is fetched until it is advanced. *)
Record GitHubIterator (T : Type) : Type := mkIterator {
  it_count : Z;
  it_url : str;
  it_cls : json -> result T;
  it_etag : option str
}.
Arguments mkIterator {T} _ _ _ _.
Arguments it_count {T} _.
Arguments it_url {T} _.
Arguments it_cls {T} _.
Arguments it_etag {T} _.

(** Modelled from the spec: [GitHubCore._iter] lives in the base model
    module.  It only records what to fetch. *)
Definition _iter {T} (count : Z) (url : str) (cls : json -> result T)
  (etag : option str) : GitHubIterator T :=
  mkIterator count url cls etag.

(** Modelled from the spec: the pagination capability is outside this file.
    A count of -1 yields every item of every page; a non-negative count caps
    the number of items yielded. *)
Definition take_count (count : Z) (items : list json) : list json :=
  if count =? -1 then items else firstn (Z.to_nat count) items.

(** The items an iterator yields when it is run to its end against a listing
    (the pages the server holds for a URL and a conditional-fetch token). *)
Definition yielded {T} (listing : str -> option str -> list (list json))
  (it : GitHubIterator T) : list (result T) :=
  map (it_cls it)
      (take_count (it_count it) (List.concat (listing (it_url it) (it_etag it)))).

(** ** The methods of RepoCommit *)

Section Methods.

Variables ShortUser ShortCommit : Type.
Variables CombinedStatus Status RepoComment : Type.
Variable CombinedStatus_new : json -> result CombinedStatus.
Variable Status_new : json -> result Status.
Variable RepoComment_new : json -> result RepoComment.

(** The session: the answer (or the transport error) to each request. *)
Variable session : request -> result response.

Definition Self : Type := RepoCommit ShortUser ShortCommit.

(** [self._get(url, headers=...)]. *)
Definition _get (url : str) (headers : list (str * str)) : IO response :=
  fun log =>
    let rq := mkRequest url headers in (session rq, log ++ [rq]).

(** Slicing [v[:n]]: strings and lists can be sliced. *)
Definition py_slice_to (v : json) (n : nat) : result json :=
  match v with
  | JStr s => Ok (JStr (firstn n s))
  | JList l => Ok (JList (firstn n l))
  | JNull | JBool _ | JInt _ | JDict _ => Raise TypeError
  end.

(** [str()] of a list is left to the interpreter. *)
Variable py_str_list : list json -> str.

(** ['{0}'.format(v)] on the result of a slice. *)
Definition py_format0 (v : json) : str :=
  match v with
  | JStr s => s
  | JList l => py_str_list l
  | _ => []
  end.

Local Open Scope res_scope.

Definition _repr (self : Self) : result str :=
  short <- py_slice_to (sha self) 7 ;;
  Ok ($"<Repository Commit [" ++ py_format0 short ++ $"]>").

Local Close Scope res_scope.
Local Open Scope io_scope.

Definition diff (self : Self) : IO bytes :=
  resp <- _get (_api self) [($"Accept", $"application/vnd.github.diff")] ;;
  ok <- lift (_boolean resp 200 404) ;;
  ret (if ok : bool then content resp else []).

Definition patch (self : Self) : IO bytes :=
  resp <- _get (_api self) [($"Accept", $"application/vnd.github.patch")] ;;
  ok <- lift (_boolean resp 200 404) ;;
  ret (if ok : bool then content resp else []).

Definition status (self : Self) : IO (option CombinedStatus) :=
  let url := _build_url $"status" (_api self) in
  resp <- _get url [] ;;
  json <- lift (_json resp 200) ;;
  lift (_instance_or_null CombinedStatus_new json).

Definition statuses (self : Self) : IO (GitHubIterator Status) :=
  let url := _build_url $"statuses" (_api self) in
  ret (_iter (-1) url Status_new None).

Definition comments (self : Self) (number : pyobj)
  (etag : option str) : IO (GitHubIterator RepoComment) :=
  let url := _build_url $"comments" (_api self) in
  n <- lift (py_int number) ;;
  ret (_iter n url RepoComment_new etag).

(** Modelled from the spec: [__eq__] and [__hash__] are inherited from the
    base model class.  Both look at the identifying value [_uniq] only. *)
Definition __eq__ (self other : Self) : bool :=
  py_eq (_uniq self) (_uniq other).

Variable py_hash : json -> result Z.

Definition __hash__ (self : Self) : result Z :=
  py_hash (_uniq self).

End Methods.

Arguments _update_attributes {ShortUser ShortCommit}.
Arguments getattr_message {ShortCommit}.
Arguments _repr {ShortUser ShortCommit}.
Arguments diff {ShortUser ShortCommit}.
Arguments patch {ShortUser ShortCommit}.
Arguments status {ShortUser ShortCommit CombinedStatus}.
Arguments statuses {ShortUser ShortCommit Status}.
Arguments comments {ShortUser ShortCommit RepoComment}.
Arguments __eq__ {ShortUser ShortCommit}.
Arguments __hash__ {ShortUser ShortCommit}.

(** ** Vocabulary of the statements *)

(** A key of the payload is missing. *)
Definition missing (d : dict) (k : str) : Prop := dict_get d k = None.

(** A key is missing or falsy. *)
Definition absent_or_falsy (d : dict) (k : str) : Prop :=
  missing d k \/ exists v, dict_get d k = Some v /\ truthy v = false.

(** A sub-object key is missing, null, or holds a fragment that the
    constructor of its class accepts. *)
Definition fragment_ok {T} (cl : json -> result T) (d : dict) (k : str)
  : Prop :=
  match dict_get d k with
  | None | Some JNull => True
  | Some v => exists t, cl v = Ok t
  end.

(** The stats key is missing, falsy, or an object. *)
Definition stats_ok (d : dict) : Prop :=
  match dict_get d $"stats" with
  | None => True
  | Some (JDict _) => True
  | Some v => truthy v = false
  end.

(** The values the data model allows for [sha]: a string or null. *)
Definition is_sha (v : json) : bool :=
  match v with
  | JNull | JStr _ => true
  | _ => false
  end.

Fixpoint is_prefix (p s : str) : bool :=
  match p, s with
  | [], _ => true
  | a :: p', b :: s' => Ascii.eqb a b && is_prefix p' s'
  | _ :: _, [] => false
  end.

(** [sub in s]. *)
Fixpoint contains (s sub : str) : bool :=
  is_prefix sub s ||
  match s with
  | [] => false
  | _ :: s' => contains s' sub
  end.

Definition is_hex (c : ascii) : bool :=
  let n := nat_of_ascii c in
  (((48 <=? n) && (n <=? 57)) || ((97 <=? n) && (n <=? 102))
   || ((65 <=? n) && (n <=? 70)))%nat.

(** *** What [int()] is documented to do *)










(** The keys of the payload that [_update_attributes] reads itself. *)
Definition read_keys : list str :=
  [$"author"; $"committer"; $"commit"; $"sha"; $"stats"; $"files"].

(** Two payloads hold the same thing under every key of a list. *)
Definition agree_on (keys : list str) (d d' : dict) : Prop :=
  forall k, In k keys -> dict_get d k = dict_get d' k.

(** A value that is not a JSON object. *)
Definition not_object (v : json) : Prop := forall s, v <> JDict s.

(** The fixed parts of the representation. *)
Definition repr_head : str := $"<Repository Commit [".
Definition repr_tail : str := $"]>".

(** ** The requests the methods send *)

Definition Accept_diff : list (str * str) :=
  [($"Accept", $"application/vnd.github.diff")].
Definition Accept_patch : list (str * str) :=
  [($"Accept", $"application/vnd.github.patch")].

(** What the three-way outcome on a response is: the body on the first
    code, the empty bytes on the second, the client's error otherwise. *)
Definition body_or_empty (resp : response) : result bytes :=
  if status_code resp =? 200 then Ok (content resp)
  else if status_code resp =? 404 then Ok []
  else Raise (HTTPError (status_code resp)).

(** A mock world used to run the definitions on concrete inputs: the
    sub-objects keep their payload, the parent records the [url] key. *)
Module Mock.
Definition only_dicts (v : json) : result json :=
  match v with JDict _ => Ok v | _ => Raise TypeError end.
Definition message_key (v : json) : option json :=
  match v with JDict d => dict_get d $"message" | _ => None end.
Definition base (d : dict) : result str :=
  match dict_get d $"url" with
  | Some (JStr u) => Ok u
  | _ => Ok $"https://api.github.com/repos/o/r/commits/x"
  end.
Definition new (d : dict) : result (RepoCommit json json) :=
  _update_attributes only_dicts only_dicts message_key base d.
Definition str_list (_ : list json) : str := $"[...]".
Definition with_sha (s : json) : RepoCommit json json :=
  mkRepoCommit $"https://api.github.com/repos/o/r/commits/x"
    (Raw JNull) (Raw JNull) (Raw JNull) s (JInt 0) (JInt 0) (JInt 0)
    (JList []) s JNull.
Definition reply (code : Z) (body : bytes) (j : result json)
  : request -> result response :=
  fun _ => Ok (mkResponse code body j).
End Mock.

(** Concrete payloads and objects. *)

Module Run.

Definition sha16 : json := JStr $"abcdef1234567890".

Definition bare : dict := [($"sha", sha16)].

Definition counted : dict :=
  [($"sha", sha16);
   ($"stats", JDict [($"additions", JInt 3); ($"deletions", JInt 1);
                     ($"total", JInt 4)])].

Definition half_counted : dict :=
  [($"sha", sha16); ($"stats", JDict [($"additions", JInt 3)])].

Definition authored : dict :=
  [($"sha", sha16); ($"author", JDict [($"login", JStr $"octocat")]);
   ($"files", JList [JDict [($"filename", JStr $"README")]])].

Definition self : RepoCommit json json := Mock.with_sha sha16.

Definition diff_body : bytes := $"diff --git a/README b/README".



Definition bad_stats : dict := [($"sha", sha16); ($"stats", JInt 5)].

Definition with_message : dict :=
  [($"sha", sha16); ($"message", JStr $"outer");
   ($"commit", JDict [($"message", JStr $"fix typo")])].

Definition bare_and_more : dict :=
  bare ++ [($"html_url", JStr $"https://github.com/o/r/commit/x");
           ($"parents", JList [])].

Definition sibling : RepoCommit json json :=
  Mock.with_sha (JStr $"abcdef1fffffffff").

End Run.


(** ** Construction *)

Lemma str_eqb_eq (a b : str) : str_eqb a b = true <-> a = b.
Proof.
  unfold str_eqb. destruct (list_eq_dec ascii_dec a b); split; congruence.
Qed.

Lemma get_attribute_missing d k fallback :
  missing d k -> _get_attribute d k fallback = fallback.
Proof. unfold missing, _get_attribute. intros ->. reflexivity. Qed.

Lemma get_attribute_present d k v fallback :
  dict_get d k = Some v -> _get_attribute d k fallback = v.
Proof. unfold _get_attribute. intros ->. reflexivity. Qed.

Lemma class_attribute_missing {T} (cl : json -> result T) d k :
  missing d k -> _class_attribute d k cl = Ok (Raw JNull).
Proof.
  intros H. unfold _class_attribute.
  rewrite (get_attribute_missing _ _ _ H). reflexivity.
Qed.

Lemma class_attribute_ok {T} (cl : json -> result T) d k :
  fragment_ok cl d k -> exists a, _class_attribute d k cl = Ok a.
Proof.
  unfold fragment_ok, _class_attribute, _get_attribute.
  destruct (dict_get d k) as [v|]; [|eauto].
  destruct v; try (intros [t ->]; simpl; eauto); eauto.
Qed.

Lemma update_stats_falsy d :
  absent_or_falsy d $"stats" -> update_stats d = Ok (JInt 0, JInt 0, JInt 0).
Proof.
  unfold update_stats. intros [H | (v & Hv & Hf)].
  - rewrite (get_attribute_missing _ _ _ H). reflexivity.
  - rewrite (get_attribute_present _ _ _ _ Hv), Hf. reflexivity.
Qed.

Lemma update_stats_object d s :
  dict_get d $"stats" = Some (JDict s) -> s <> [] ->
  update_stats d =
    Ok (_get_attribute s $"additions" JNull,
        _get_attribute s $"deletions" JNull,
        _get_attribute s $"total" JNull).
Proof.
  intros Hs Hne. unfold update_stats, dict_getitem.
  rewrite (get_attribute_present _ _ _ _ Hs), Hs.
  destruct s; [congruence | reflexivity].
Qed.

Lemma update_stats_ok d :
  stats_ok d -> exists r, update_stats d = Ok r.
Proof.
  unfold stats_ok. intros H.
  destruct (dict_get d $"stats") as [v|] eqn:E.
  - destruct (truthy v) eqn:Ht.
    + destruct v; try congruence.
      eexists. apply update_stats_object; [exact E|].
      intros ->. discriminate.
    + eexists. apply update_stats_falsy. right. eauto.
  - eexists. apply update_stats_falsy. left. exact E.
Qed.

Section Construction.

Variables ShortUser ShortCommit : Type.
Variable ShortUser_new : json -> result ShortUser.
Variable ShortCommit_new : json -> result ShortCommit.
Variable ShortCommit_message : ShortCommit -> option json.
Variable BaseCommit_update_attributes : dict -> result str.

Let new : dict -> result (RepoCommit ShortUser ShortCommit) :=
  _update_attributes ShortUser_new ShortCommit_new ShortCommit_message
    BaseCommit_update_attributes.

(** What a successful construction did, step by step. *)
Lemma update_attributes_inv d c :
  new d = Ok c ->
  BaseCommit_update_attributes d = Ok (_api c)
  /\ _class_attribute d $"author" ShortUser_new = Ok (author c)
  /\ _class_attribute d $"committer" ShortUser_new = Ok (committer c)
  /\ _class_attribute d $"commit" ShortCommit_new = Ok (commit c)
  /\ sha c = _get_attribute d $"sha" JNull
  /\ update_stats d = Ok (additions c, deletions c, total c)
  /\ files c = _get_attribute d $"files" (JList [])
  /\ _uniq c = sha c
  /\ message c = getattr_message ShortCommit_message (commit c).
Proof.
  unfold new, _update_attributes.
  destruct (BaseCommit_update_attributes d) as [api|]; [|discriminate].
  destruct (_class_attribute d $"author" _) as [a|]; [|discriminate].
  destruct (_class_attribute d $"committer" _) as [cm|]; [|discriminate].
  destruct (_class_attribute d $"commit" _) as [co|]; [|discriminate].
  destruct (update_stats d) as [[[ad de] to]|]; [|discriminate].
  simpl. intros [= <-]. simpl. repeat split; reflexivity.
Qed.

(** C1: a payload whose [stats] is missing or falsy gives an object whose
    additions, deletions and total are all 0; a payload whose [stats] is an
    object holding additions a, deletions d and total t gives an object
    whose three counters are exactly a, d and t. *)
Theorem stats_counters d c :
  new d = Ok c ->
  (absent_or_falsy d $"stats" ->
     additions c = JInt 0 /\ deletions c = JInt 0 /\ total c = JInt 0)
  /\ (forall s a dl t,
        dict_get d $"stats" = Some (JDict s) ->
        dict_get s $"additions" = Some a ->
        dict_get s $"deletions" = Some dl ->
        dict_get s $"total" = Some t ->
        additions c = a /\ deletions c = dl /\ total c = t).
Proof.
  intros H. apply update_attributes_inv in H.
  destruct H as (_ & _ & _ & _ & _ & Hst & _). split.
  - intros Hf. rewrite (update_stats_falsy _ Hf) in Hst.
    injection Hst as <- <- <-. auto.
  - intros s a dl t Hs Ha Hd Ht.
    assert (Hne : s <> []) by (intros ->; discriminate).
    rewrite (update_stats_object _ _ Hs Hne) in Hst.
    injection Hst as <- <- <-.
    repeat split; apply get_attribute_present; assumption.
Qed.

(** C9: when [stats] is a non-empty object, each counter is what the object
    holds under its key and null when the key is not there; the default 0
    is not kept. *)
Theorem stats_missing_counter_is_null d c s :
  new d = Ok c ->
  dict_get d $"stats" = Some (JDict s) ->
  s <> [] ->
  additions c = _get_attribute s $"additions" JNull
  /\ deletions c = _get_attribute s $"deletions" JNull
  /\ total c = _get_attribute s $"total" JNull
  /\ (missing s $"additions" -> additions c = JNull)
  /\ (missing s $"deletions" -> deletions c = JNull)
  /\ (missing s $"total" -> total c = JNull).
Proof.
  intros H Hs Hne. apply update_attributes_inv in H.
  destruct H as (_ & _ & _ & _ & _ & Hst & _).
  rewrite (update_stats_object _ _ Hs Hne) in Hst.
  injection Hst as <- <- <-.
  repeat split; try reflexivity; intros Hm;
    apply get_attribute_missing; exact Hm.
Qed.

(** C4: once the parent initialiser has run, construction returns an
    object whenever each of author, committer and commit is missing (or
    acceptable to its constructor) and stats is missing (or falsy, or an
    object); every missing key resolves to its default: null for author,
    committer, commit and sha, the three zero counters for stats, the
    empty list for files. *)
Theorem construction_tolerates_missing_keys d api :
  BaseCommit_update_attributes d = Ok api ->
  fragment_ok ShortUser_new d $"author" ->
  fragment_ok ShortUser_new d $"committer" ->
  fragment_ok ShortCommit_new d $"commit" ->
  stats_ok d ->
  exists c,
    new d = Ok c
    /\ (missing d $"author" -> author c = Raw JNull)
    /\ (missing d $"committer" -> committer c = Raw JNull)
    /\ (missing d $"commit" -> commit c = Raw JNull /\ message c = JNull)
    /\ (missing d $"stats" ->
          additions c = JInt 0 /\ deletions c = JInt 0 /\ total c = JInt 0)
    /\ (missing d $"files" -> files c = JList [])
    /\ (missing d $"sha" -> sha c = JNull).
Proof.
  intros Hb Ha Hc Hco Hs.
  destruct (class_attribute_ok _ _ _ Ha) as [a Ea].
  destruct (class_attribute_ok _ _ _ Hc) as [cm Ecm].
  destruct (class_attribute_ok _ _ _ Hco) as [co Eco].
  destruct (update_stats_ok _ Hs) as [[[ad de] to] Est].
  eexists. split.
  - unfold new, _update_attributes.
    rewrite Hb, Ea, Ecm, Eco, Est. simpl. reflexivity.
  - simpl. repeat match goal with |- _ /\ _ => split end; intros M.
    + rewrite (class_attribute_missing _ _ _ M) in Ea. congruence.
    + rewrite (class_attribute_missing _ _ _ M) in Ecm. congruence.
    + rewrite (class_attribute_missing _ _ _ M) in Eco.
      injection Eco as <-. split; reflexivity.
    + rewrite update_stats_falsy in Est by (left; exact M).
      injection Est as <- <- <-. repeat split.
    + apply get_attribute_missing. exact M.
    + apply get_attribute_missing. exact M.
Qed.

End Construction.

(** ** Equality and hashing *)

Lemma py_eq_sha (a b : json) :
  is_sha a = true -> is_sha b = true -> (py_eq a b = true <-> a = b).
Proof.
  destruct a, b; simpl; try discriminate; intros _ _.
  - split; reflexivity.
  - split; discriminate.
  - split; discriminate.
  - rewrite str_eqb_eq. split; [intros ->; reflexivity | intros [= ->]; reflexivity].
Qed.

Section Identity.

Variables ShortUser ShortCommit : Type.
Variable ShortUser_new : json -> result ShortUser.
Variable ShortCommit_new : json -> result ShortCommit.
Variable ShortCommit_message : ShortCommit -> option json.
Variable BaseCommit_update_attributes : dict -> result str.
Variable py_hash : json -> result Z.

Let new : dict -> result (RepoCommit ShortUser ShortCommit) :=
  _update_attributes ShortUser_new ShortCommit_new ShortCommit_message
    BaseCommit_update_attributes.

(** C3: two constructed instances compare equal exactly when their sha
    values do, whatever the rest of the two payloads holds: for shas that
    are strings or null this is equality of the shas, and two instances
    without a sha are equal; the hash is the hash of the sha. *)
Theorem equality_and_hash_by_sha d1 d2 c1 c2 :
  new d1 = Ok c1 ->
  new d2 = Ok c2 ->
  __eq__ c1 c2
    = py_eq (_get_attribute d1 $"sha" JNull) (_get_attribute d2 $"sha" JNull)
  /\ (is_sha (sha c1) = true -> is_sha (sha c2) = true ->
      (__eq__ c1 c2 = true <-> sha c1 = sha c2))
  /\ (missing d1 $"sha" -> missing d2 $"sha" -> __eq__ c1 c2 = true)
  /\ __hash__ py_hash c1 = py_hash (sha c1)
  /\ (sha c1 = sha c2 -> __hash__ py_hash c1 = __hash__ py_hash c2).
Proof.
  intros H1 H2.
  apply update_attributes_inv in H1, H2.
  destruct H1 as (_ & _ & _ & _ & S1 & _ & _ & U1 & _).
  destruct H2 as (_ & _ & _ & _ & S2 & _ & _ & U2 & _).
  unfold __eq__, __hash__. rewrite U1, U2.
  repeat match goal with |- _ /\ _ => split end.
  - rewrite S1, S2. reflexivity.
  - intros A B. apply py_eq_sha; assumption.
  - intros M1 M2. rewrite S1, S2.
    rewrite (get_attribute_missing _ _ _ M1), (get_attribute_missing _ _ _ M2).
    reflexivity.
  - reflexivity.
  - intros ->. reflexivity.
Qed.

End Identity.

(** ** Fetching the diff, the patch and the combined status *)

Section Fetch.

Variables ShortUser ShortCommit CombinedStatus : Type.
Variable CombinedStatus_new : json -> result CombinedStatus.
Variable self : RepoCommit ShortUser ShortCommit.

Lemma run_diff session :
  run (diff session self) =
    (rbind (session (mkRequest (_api self) Accept_diff)) body_or_empty,
     [mkRequest (_api self) Accept_diff]).
Proof.
  unfold run, diff, bind, _get, lift, ret, body_or_empty, _boolean. simpl.
  destruct (session _) as [resp|e]; simpl; [|reflexivity].
  destruct (status_code resp =? 200); [reflexivity|].
  destruct (status_code resp =? 404); reflexivity.
Qed.

Lemma run_patch session :
  run (patch session self) =
    (rbind (session (mkRequest (_api self) Accept_patch)) body_or_empty,
     [mkRequest (_api self) Accept_patch]).
Proof.
  unfold run, patch, bind, _get, lift, ret, body_or_empty, _boolean. simpl.
  destruct (session _) as [resp|e]; simpl; [|reflexivity].
  destruct (status_code resp =? 200); [reflexivity|].
  destruct (status_code resp =? 404); reflexivity.
Qed.

Lemma body_or_empty_cases resp :
  (status_code resp = 200 -> body_or_empty resp = Ok (content resp))
  /\ (status_code resp = 404 -> body_or_empty resp = Ok [])
  /\ (status_code resp <> 200 -> status_code resp <> 404 ->
      body_or_empty resp = Raise (HTTPError (status_code resp))).
Proof.
  unfold body_or_empty. repeat split.
  - intros ->. reflexivity.
  - intros ->. reflexivity.
  - intros H1 H2.
    destruct (Z.eqb_spec (status_code resp) 200); [contradiction|].
    destruct (Z.eqb_spec (status_code resp) 404); [contradiction|].
    reflexivity.
Qed.

(** C2: [diff()] sends one GET to the commit's URL asking for the diff
    media type; on the response it returns the raw body when the status is
    200, the empty bytes when it is 404, and raises the client's error for
    every other status. *)
Theorem diff_contract session resp :
  session (mkRequest (_api self) Accept_diff) = Ok resp ->
  snd (run (diff session self)) = [mkRequest (_api self) Accept_diff]
  /\ (status_code resp = 200 ->
      fst (run (diff session self)) = Ok (content resp))
  /\ (status_code resp = 404 -> fst (run (diff session self)) = Ok [])
  /\ (status_code resp <> 200 -> status_code resp <> 404 ->
      fst (run (diff session self)) = Raise (HTTPError (status_code resp))).
Proof.
  intros H. rewrite run_diff, H. simpl.
  split; [reflexivity | apply body_or_empty_cases].
Qed.

(** An error of the transport itself comes out of [diff()] unchanged. *)
Lemma diff_transport_error session e :
  session (mkRequest (_api self) Accept_diff) = Raise e ->
  fst (run (diff session self)) = Raise e.
Proof. intros H. rewrite run_diff, H. reflexivity. Qed.

(** C7: [patch()] sends its request to the same URL as [diff()], with the
    patch media type in the Accept header where [diff()] has the diff media
    type; given the same answer the two return the same outcome: the body on
    200, the empty bytes on 404, the client's error otherwise. *)
Theorem patch_same_contract_as_diff s_diff s_patch :
  s_diff (mkRequest (_api self) Accept_diff)
    = s_patch (mkRequest (_api self) Accept_patch) ->
  fst (run (diff s_diff self)) = fst (run (patch s_patch self))
  /\ snd (run (diff s_diff self))
       = [mkRequest (_api self)
            [($"Accept", $"application/vnd.github.diff")]]
  /\ snd (run (patch s_patch self))
       = [mkRequest (_api self)
            [($"Accept", $"application/vnd.github.patch")]]
  /\ map req_url (snd (run (diff s_diff self)))
       = map req_url (snd (run (patch s_patch self)))
  /\ (forall resp,
        s_patch (mkRequest (_api self) Accept_patch) = Ok resp ->
        fst (run (patch s_patch self)) = body_or_empty resp).
Proof.
  intros H. rewrite run_diff, run_patch, H. simpl.
  repeat match goal with |- _ /\ _ => split end; try reflexivity.
  intros resp ->. reflexivity.
Qed.

Lemma run_status session :
  run (status CombinedStatus_new session self) =
    (rbind (session (mkRequest (_api self ++ $"/status") []))
       (fun resp =>
          rbind (_json resp 200) (_instance_or_null CombinedStatus_new)),
     [mkRequest (_api self ++ $"/status") []]).
Proof.
  unfold run, status, bind, _get, lift, _build_url. simpl.
  destruct (session _) as [resp|e]; simpl; [|reflexivity].
  destruct (_json resp 200); reflexivity.
Qed.

(** C5: [status()] sends one GET to the commit's URL followed by
    [/status]; a status other than 200 is an error; on 200 an empty body or
    a falsy decoded body gives null, and any other decoded body is handed to
    the CombinedStatus constructor. *)
Theorem status_contract session resp :
  session (mkRequest (_api self ++ $"/status") []) = Ok resp ->
  let out := fst (run (status CombinedStatus_new session self)) in
  snd (run (status CombinedStatus_new session self))
    = [mkRequest (_api self ++ $"/status") []]
  /\ (status_code resp <> 200 -> out = Raise (HTTPError (status_code resp)))
  /\ (status_code resp = 200 -> content resp = [] -> out = Ok None)
  /\ (forall j, status_code resp = 200 -> content resp <> [] ->
        json_body resp = Ok j -> truthy j = false -> out = Ok None)
  /\ (forall j, status_code resp = 200 -> content resp <> [] ->
        json_body resp = Ok j -> truthy j = true ->
        out = rbind (CombinedStatus_new j) (fun t => Ok (Some t))).
Proof.
  intros H out. subst out. rewrite run_status, H. simpl.
  unfold _json, _instance_or_null.
  repeat match goal with |- _ /\ _ => split end.
  - reflexivity.
  - intros Hn. destruct (Z.eqb_spec (status_code resp) 200);
      [contradiction | reflexivity].
  - intros -> ->. reflexivity.
  - intros j -> Hc Hj Ht. simpl.
    destruct (content resp); [congruence|].
    rewrite Hj. simpl. rewrite Ht. reflexivity.
  - intros j -> Hc Hj Ht. simpl.
    destruct (content resp); [congruence|].
    rewrite Hj. simpl. rewrite Ht. reflexivity.
Qed.

End Fetch.

(** ** Coercion to an integer *)











(** *** Blanks at both ends *)









(** *** The digits *)




(** *** The implementation against the documented behaviour *)






(** ** Comments *)

Lemma take_count_all items : take_count (-1) items = items.
Proof. reflexivity. Qed.


Section Comments.

Variables ShortUser ShortCommit RepoComment : Type.
Variable RepoComment_new : json -> result RepoComment.
Variable self : RepoCommit ShortUser ShortCommit.


(** [statuses()] asks for everything: no request is sent by the call, and
    the sequence it returns has no cap. *)
Lemma statuses_unbounded {Status} (Status_new : json -> result Status)
  listing :
  exists it,
    run (statuses Status_new self) = (Ok it, [])
    /\ yielded listing it
       = map Status_new
           (List.concat (listing (_api self ++ $"/statuses") None)).
Proof. eexists. split; reflexivity. Qed.

End Comments.

(** What [int()] does with some inputs a caller may pass. *)
Example int_of_text : py_int (JStr $" -12 ") = Ok (-12).
Proof. reflexivity. Qed.

Example int_of_underscored : py_int (JStr $"1_000") = Ok 1000.
Proof. reflexivity. Qed.

Example int_of_word : py_int (JStr $"two") = Raise ValueError.
Proof. reflexivity. Qed.

Example int_of_none : py_int JNull = Raise TypeError.
Proof. reflexivity. Qed.

Example int_of_no_break_space : py_int (OText [160; 53]%N) = Ok 5.
Proof. reflexivity. Qed.

Example int_of_file_separator :
  py_int (OText [28; 53]%N) = Raise ValueError.
Proof. reflexivity. Qed.

Example int_of_arabic_indic : py_int (OText [1637; 1633]%N) = Ok 51.
Proof. reflexivity. Qed.

Example int_of_floats :
  py_int (OFloat (S754_finite false 27 (-1))) = Ok 13
  /\ py_int (OFloat (S754_finite true 6079859496950170 (-51))) = Ok (-2).
Proof. split; reflexivity. Qed.

(** ** The representation *)

Lemma is_prefix_app p s : is_prefix p (p ++ s) = true.
Proof.
  induction p as [|a p IH]; simpl; [reflexivity|].
  rewrite Ascii.eqb_refl. exact IH.
Qed.

Lemma is_prefix_inv p : forall s,
  is_prefix p s = true -> exists post, s = p ++ post.
Proof.
  induction p as [|a p IH]; intros s H.
  - exists s. reflexivity.
  - destruct s as [|b s]; [discriminate|]. simpl in H.
    apply andb_true_iff in H as [Hab Hp].
    apply Ascii.eqb_eq in Hab. subst b.
    destruct (IH _ Hp) as [post ->]. exists post. reflexivity.
Qed.

Lemma contains_app pre sub post : contains (pre ++ sub ++ post) sub = true.
Proof.
  induction pre as [|c pre IH]; simpl.
  - pose proof (is_prefix_app sub post) as P.
    destruct (sub ++ post); simpl; rewrite P; reflexivity.
  - rewrite IH. apply orb_true_r.
Qed.

Lemma contains_inv sub : forall s,
  contains s sub = true -> exists pre post, s = pre ++ sub ++ post.
Proof.
  induction s as [|c s IH]; simpl; intros H.
  - rewrite orb_false_r in H. apply is_prefix_inv in H as [post ->].
    exists [], post. reflexivity.
  - apply orb_true_iff in H as [H | H].
    + apply is_prefix_inv in H as [post ->]. exists [], post. reflexivity.
    + destruct (IH H) as (pre & post & ->). exists (c :: pre), post.
      reflexivity.
Qed.

Lemma hex_nth s i :
  forallb is_hex s = true -> (i < List.length s)%nat ->
  is_hex (nth i s "000"%char) = true.
Proof.
  intros H Hi. rewrite forallb_forall in H. apply H, nth_In, Hi.
Qed.

(** Behind the opening bracket there is no room for eight hex digits. *)
Lemma no_hex_run_in_tail s7 sha pre post :
  (List.length s7 <= 7)%nat -> (7 < List.length sha)%nat ->
  forallb is_hex sha = true ->
  s7 ++ $"]>" = pre ++ sha ++ post -> False.
Proof.
  intros H7 Hlen Hhex E.
  assert (L : (List.length s7 + 2 =
               List.length pre + (List.length sha + List.length post))%nat).
  { apply (f_equal (@List.length ascii)) in E.
    rewrite !length_app in E. simpl in E. exact E. }
  assert (N : nth (List.length s7) (s7 ++ $"]>") "000"%char = "]"%char).
  { rewrite app_nth2 by lia. rewrite Nat.sub_diag. reflexivity. }
  rewrite E in N.
  rewrite app_nth2 in N by lia.
  rewrite app_nth1 in N by lia.
  pose proof (hex_nth sha (List.length s7 - List.length pre) Hhex) as Hx.
  rewrite N in Hx. discriminate Hx. lia.
Qed.

Ltac hex_clash Ha Hb :=
  first [ vm_compute in Ha; discriminate Ha
        | vm_compute in Hb; discriminate Hb ].

(** A run of eight hex digits or more does not fit anywhere in the
    representation: the heading has no two hex digits in a row, and at most
    seven characters stand between the brackets. *)
Lemma no_hex_run_in_repr s7 sha pre post :
  (List.length s7 <= 7)%nat -> (7 < List.length sha)%nat ->
  forallb is_hex sha = true ->
  $"<Repository Commit [" ++ s7 ++ $"]>" = pre ++ sha ++ post -> False.
Proof.
  intros H7 Hlen Hhex E.
  destruct sha as [|a [|b sha']]; try (simpl in Hlen; lia).
  pose proof Hhex as Hhex'. simpl in Hhex'.
  apply andb_true_iff in Hhex' as [Ha Hb'].
  apply andb_true_iff in Hb' as [Hb _].
  cbn [list_ascii_of_string app] in E.
  do 20 (destruct pre as [|? pre];
         [ simpl in E; inversion E; subst; hex_clash Ha Hb
         | injection E as _ E ]).
  exact (no_hex_run_in_tail s7 (a :: b :: sha') pre post H7 Hlen Hhex E).
Qed.

Section Repr.

Variables ShortUser ShortCommit : Type.
Variable ShortUser_new : json -> result ShortUser.
Variable ShortCommit_new : json -> result ShortCommit.
Variable ShortCommit_message : ShortCommit -> option json.
Variable BaseCommit_update_attributes : dict -> result str.
Variable py_str_list : list json -> str.

(** C8, as the code has it: for a string sha the representation is the
    heading, the first 7 characters of the sha and the closing bracket, so
    it contains those 7 characters; it does not contain the full sha when
    the sha is longer than 7 characters and made of hex digits. *)
Theorem repr_shows_short_sha (self : RepoCommit ShortUser ShortCommit) s :
  sha self = JStr s ->
  exists r,
    _repr py_str_list self = Ok r
    /\ r = $"<Repository Commit [" ++ firstn 7 s ++ $"]>"
    /\ contains r (firstn 7 s) = true
    /\ ((7 < List.length s)%nat -> forallb is_hex s = true ->
        contains r s = false).
Proof.
  intros Hs. eexists. split; [|split; [reflexivity|split]].
  - unfold _repr. rewrite Hs. reflexivity.
  - apply contains_app.
  - intros Hlen Hhex.
    destruct (contains _ s) eqn:C; [exfalso | reflexivity].
    apply contains_inv in C as (pre & post & E).
    apply (no_hex_run_in_repr (firstn 7 s) s pre post); auto.
    rewrite length_firstn. lia.
Qed.

(** C10: a payload without a sha constructs an object whose sha is null,
    and the representation of an object whose sha is null raises; among the
    values the data model allows for sha, the representation returns exactly
    on the strings. *)
Theorem repr_raises_on_null_sha d c :
  _update_attributes ShortUser_new ShortCommit_new ShortCommit_message
    BaseCommit_update_attributes d = Ok c ->
  missing d $"sha" ->
  sha c = JNull
  /\ _repr py_str_list c = Raise TypeError
  /\ (forall self : RepoCommit ShortUser ShortCommit,
        is_sha (sha self) = true ->
        (returns (_repr py_str_list self) = true
         <-> exists s, sha self = JStr s)).
Proof.
  intros H M. apply update_attributes_inv in H.
  destruct H as (_ & _ & _ & _ & S & _).
  rewrite (get_attribute_missing _ _ _ M) in S.
  repeat match goal with |- _ /\ _ => split end.
  - exact S.
  - unfold _repr. rewrite S. reflexivity.
  - intros self Hs. unfold _repr.
    destruct (sha self) as [| | |s| |]; simpl in *; try discriminate.
    + split; [discriminate | intros [s E]; discriminate E].
    + split; [eauto | reflexivity].
Qed.

End Repr.

(** ** The statements at work on concrete payloads *)

Lemma stats_counters_witness :
  (exists c, Mock.new Run.bare = Ok c
     /\ additions c = JInt 0 /\ deletions c = JInt 0 /\ total c = JInt 0)
  /\ (exists c, Mock.new Run.counted = Ok c
     /\ additions c = JInt 3 /\ deletions c = JInt 1 /\ total c = JInt 4).
Proof.
  split.
  - eexists. split; [vm_compute; reflexivity|].
    apply (proj1 (stats_counters _ _ Mock.only_dicts Mock.only_dicts
                    Mock.message_key Mock.base Run.bare _ eq_refl)).
    left. reflexivity.
  - eexists. split; [vm_compute; reflexivity|].
    apply (proj2 (stats_counters _ _ Mock.only_dicts Mock.only_dicts
                    Mock.message_key Mock.base Run.counted _ eq_refl)
             [($"additions", JInt 3); ($"deletions", JInt 1);
              ($"total", JInt 4)]);
      reflexivity.
Defined.

Lemma stats_missing_counter_is_null_witness :
  exists c, Mock.new Run.half_counted = Ok c
    /\ additions c = JInt 3 /\ deletions c = JNull /\ total c = JNull.
Proof.
  eexists. split; [vm_compute; reflexivity|].
  destruct (stats_missing_counter_is_null _ _ Mock.only_dicts Mock.only_dicts
              Mock.message_key Mock.base Run.half_counted _
              [($"additions", JInt 3)] eq_refl eq_refl)
    as (Ha & _ & _ & _ & Hd & Ht).
  - discriminate.
  - split; [exact Ha | split; [apply Hd | apply Ht]; reflexivity].
Defined.

Lemma construction_tolerates_missing_keys_witness :
  exists c, Mock.new [] = Ok c
    /\ author c = Raw JNull /\ committer c = Raw JNull
    /\ commit c = Raw JNull /\ sha c = JNull /\ files c = JList []
    /\ additions c = JInt 0.
Proof.
  destruct (construction_tolerates_missing_keys _ _ Mock.only_dicts
              Mock.only_dicts Mock.message_key Mock.base []
              $"https://api.github.com/repos/o/r/commits/x"
              eq_refl I I I I)
    as (c & Hc & Ha & Hcm & Hco & Hst & Hf & Hs).
  exists c. split; [exact Hc|].
  repeat split;
    [ apply Ha | apply Hcm | apply Hco | apply Hs | apply Hf | apply Hst ];
    reflexivity.
Defined.

Lemma equality_and_hash_by_sha_witness :
  exists c1 c2,
    Mock.new Run.counted = Ok c1 /\ Mock.new Run.authored = Ok c2
    /\ c1 <> c2 /\ __eq__ c1 c2 = true.
Proof.
  eexists. eexists.
  split; [vm_compute; reflexivity|]. split; [vm_compute; reflexivity|].
  split; [discriminate|].
  apply (proj1 (proj2 (equality_and_hash_by_sha _ _ Mock.only_dicts
                         Mock.only_dicts Mock.message_key Mock.base
                         (fun _ => Ok 0) Run.counted Run.authored _ _
                         eq_refl eq_refl))); reflexivity.
Defined.

Lemma diff_contract_witness :
  fst (run (diff (Mock.reply 200 Run.diff_body (Raise ValueError)) Run.self))
    = Ok Run.diff_body
  /\ fst (run (diff (Mock.reply 404 $"Not Found" (Raise ValueError)) Run.self))
    = Ok []
  /\ fst (run (diff (Mock.reply 500 $"oops" (Raise ValueError)) Run.self))
    = Raise (HTTPError 500).
Proof.
  split; [|split].
  - apply (diff_contract _ _ Run.self _ (mkResponse 200 Run.diff_body _)
             eq_refl). reflexivity.
  - apply (diff_contract _ _ Run.self _ (mkResponse 404 $"Not Found" _)
             eq_refl). reflexivity.
  - apply (diff_contract _ _ Run.self _ (mkResponse 500 $"oops" _)
             eq_refl); discriminate.
Defined.

Lemma patch_same_contract_as_diff_witness :
  fst (run (patch (Mock.reply 404 [] (Raise ValueError)) Run.self))
    = fst (run (diff (Mock.reply 404 [] (Raise ValueError)) Run.self))
  /\ snd (run (patch (Mock.reply 404 [] (Raise ValueError)) Run.self))
     <> snd (run (diff (Mock.reply 404 [] (Raise ValueError)) Run.self)).
Proof.
  split; [|discriminate].
  symmetry.
  apply (patch_same_contract_as_diff _ _ Run.self
           (Mock.reply 404 [] (Raise ValueError))
           (Mock.reply 404 [] (Raise ValueError)) eq_refl).
Defined.

Lemma status_contract_witness :
  fst (run (status Mock.only_dicts
              (Mock.reply 200 $"{}" (Ok (JDict []))) Run.self)) = Ok None
  /\ snd (run (status Mock.only_dicts
              (Mock.reply 200 $"{}" (Ok (JDict []))) Run.self))
     = [mkRequest $"https://api.github.com/repos/o/r/commits/x/status" []].
Proof.
  destruct (status_contract _ _ _ Mock.only_dicts Run.self
              (Mock.reply 200 $"{}" (Ok (JDict [])))
              (mkResponse 200 $"{}" (Ok (JDict []))) eq_refl)
    as (Hlog & _ & _ & Hfalsy & _).
  split.
  - apply (Hfalsy (JDict [])); [reflexivity | discriminate | reflexivity
                               | reflexivity].
  - exact Hlog.
Defined.


Lemma repr_shows_short_sha_witness :
  exists r,
    _repr Mock.str_list Run.self = Ok r
    /\ r = $"<Repository Commit [abcdef1]>"
    /\ contains r $"abcdef1" = true
    /\ contains r $"abcdef1234567890" = false.
Proof.
  destruct (repr_shows_short_sha _ _ Mock.str_list Run.self
              $"abcdef1234567890" eq_refl)
    as (r & Hr & Hshape & Hin & Hout).
  exists r. repeat split.
  - exact Hr.
  - exact Hshape.
  - exact Hin.
  - apply Hout; [simpl; lia | reflexivity].
Defined.

(** C8 as stated fails on a sha longer than 7 characters that is not made
    of hex digits: the heading of the representation can hold it whole.
    The sha [Repository] is shown as [Reposit] between the brackets, and
    stands in full in the heading. *)
Lemma repr_contains_full_long_sha :
  ~ (forall (d : dict) (c : RepoCommit json json) (s r : str),
       Mock.new d = Ok c ->
       sha c = JStr s ->
       (7 < List.length s)%nat ->
       _repr Mock.str_list c = Ok r ->
       contains r (firstn 7 s) = true /\ contains r s = false).
Proof.
  intros H.
  assert (L : (7 < List.length $"Repository")%nat) by (simpl; lia).
  destruct (H [($"sha", JStr $"Repository")]
              (Mock.with_sha (JStr $"Repository")) $"Repository"
              $"<Repository Commit [Reposit]>" eq_refl eq_refl L eq_refl)
    as [_ Hout].
  vm_compute in Hout. discriminate Hout.
Qed.

Lemma repr_raises_on_null_sha_witness :
  exists c, Mock.new [] = Ok c
    /\ _repr Mock.str_list c = Raise TypeError.
Proof.
  eexists. split; [vm_compute; reflexivity|].
  apply (repr_raises_on_null_sha _ _ Mock.only_dicts Mock.only_dicts
           Mock.message_key Mock.base Mock.str_list [] _ eq_refl eq_refl).
Defined.

(** ** More on construction: errors, dependencies, derived fields *)

Lemma class_attribute_raises {T} (cl : json -> result T) d k e :
  _class_attribute d k cl = Raise e ->
  exists v, dict_get d k = Some v /\ v <> JNull /\ cl v = Raise e.
Proof.
  unfold _class_attribute, _get_attribute.
  destruct (dict_get d k) as [v|]; [|discriminate].
  destruct v; try discriminate; simpl;
    match goal with |- context [cl ?v] => destruct (cl v) eqn:E end;
    try discriminate; intros [= <-]; eexists; repeat split;
    try exact E; discriminate.
Qed.

Lemma class_attribute_inst {T} (cl : json -> result T) d k v t :
  dict_get d k = Some v -> v <> JNull -> cl v = Ok t ->
  _class_attribute d k cl = Ok (Inst t).
Proof.
  intros Hv Hn Ht. unfold _class_attribute, _get_attribute. rewrite Hv.
  destruct v; try congruence; simpl; rewrite Ht; reflexivity.
Qed.

Lemma class_attribute_null {T} (cl : json -> result T) d k :
  missing d k \/ dict_get d k = Some JNull ->
  _class_attribute d k cl = Ok (Raw JNull).
Proof.
  intros [M | M].
  - apply class_attribute_missing, M.
  - unfold _class_attribute, _get_attribute. rewrite M. reflexivity.
Qed.

Lemma update_stats_non_object d v :
  dict_get d $"stats" = Some v -> truthy v = true -> not_object v ->
  update_stats d = Raise AttributeError.
Proof.
  intros Hv Ht Hn. unfold update_stats, dict_getitem.
  rewrite (get_attribute_present _ _ _ _ Hv), Ht, Hv.
  destruct v; try reflexivity. exfalso. exact (Hn d0 eq_refl).
Qed.

Lemma update_stats_raises d e :
  update_stats d = Raise e ->
  e = AttributeError
  /\ exists v, dict_get d $"stats" = Some v /\ truthy v = true
               /\ not_object v.
Proof.
  intros H.
  destruct (dict_get d $"stats") as [v|] eqn:Hv.
  - destruct (truthy v) eqn:Ht.
    + destruct v as [|b|n|t|l|s];
        try (rewrite (update_stats_non_object d _ Hv Ht) in H
               by (intros ?; discriminate);
             injection H as <-; split; [reflexivity|];
             eexists; repeat split; try reflexivity; try exact Ht;
             intros ?; discriminate).
      rewrite (update_stats_object d s Hv) in H by (intros ->; discriminate).
      discriminate.
    + rewrite update_stats_falsy in H by (right; eauto). discriminate.
  - rewrite update_stats_falsy in H by (left; exact Hv). discriminate.
Qed.

Lemma update_stats_agree d d' :
  dict_get d $"stats" = dict_get d' $"stats" ->
  update_stats d = update_stats d'.
Proof.
  intros H. unfold update_stats, dict_getitem, _get_attribute.
  rewrite H. reflexivity.
Qed.

Section ConstructionMore.

Variables ShortUser ShortCommit : Type.
Variable ShortUser_new : json -> result ShortUser.
Variable ShortCommit_new : json -> result ShortCommit.
Variable ShortCommit_message : ShortCommit -> option json.
Variable BaseCommit_update_attributes : dict -> result str.

Let new : dict -> result (RepoCommit ShortUser ShortCommit) :=
  _update_attributes ShortUser_new ShortCommit_new ShortCommit_message
    BaseCommit_update_attributes.

(** X1: a truthy [stats] that is not an object (a number, a non-empty
    string or list, true) makes construction raise AttributeError, because
    [.get] is called on it; this happens once the parent initialiser and the
    three sub-objects have gone through. *)
Theorem construction_rejects_non_object_stats d api v :
  BaseCommit_update_attributes d = Ok api ->
  fragment_ok ShortUser_new d $"author" ->
  fragment_ok ShortUser_new d $"committer" ->
  fragment_ok ShortCommit_new d $"commit" ->
  dict_get d $"stats" = Some v ->
  truthy v = true ->
  not_object v ->
  new d = Raise AttributeError.
Proof.
  intros Hb Ha Hc Hco Hv Ht Hn.
  destruct (class_attribute_ok _ _ _ Ha) as [a Ea].
  destruct (class_attribute_ok _ _ _ Hc) as [cm Ecm].
  destruct (class_attribute_ok _ _ _ Hco) as [co Eco].
  unfold new, _update_attributes.
  rewrite Hb, Ea, Ecm, Eco, (update_stats_non_object _ _ Hv Ht Hn).
  reflexivity.
Qed.

(** X2: an exception out of construction has one of five origins: the
    parent initialiser, the ShortUser constructor on a non-null author or
    committer fragment, the ShortCommit constructor on a non-null commit
    fragment, or AttributeError on a truthy stats that is not an object.
    The lookups of the method itself never raise: the index
    [commit['stats']] is only evaluated when the key is there. *)
Theorem construction_error_origin d e :
  new d = Raise e ->
  BaseCommit_update_attributes d = Raise e
  \/ (exists v, dict_get d $"author" = Some v /\ v <> JNull
                /\ ShortUser_new v = Raise e)
  \/ (exists v, dict_get d $"committer" = Some v /\ v <> JNull
                /\ ShortUser_new v = Raise e)
  \/ (exists v, dict_get d $"commit" = Some v /\ v <> JNull
                /\ ShortCommit_new v = Raise e)
  \/ (e = AttributeError
      /\ exists v, dict_get d $"stats" = Some v /\ truthy v = true
                   /\ not_object v).
Proof.
  unfold new, _update_attributes.
  destruct (BaseCommit_update_attributes d) as [api|e0];
    [|intros [= <-]; left; reflexivity].
  destruct (_class_attribute d $"author" _) as [a|e0] eqn:Ea;
    [|intros [= <-]; right; left; exact (class_attribute_raises _ _ _ _ Ea)].
  destruct (_class_attribute d $"committer" _) as [cm|e0] eqn:Ecm;
    [|intros [= <-]; right; right; left;
      exact (class_attribute_raises _ _ _ _ Ecm)].
  destruct (_class_attribute d $"commit" _) as [co|e0] eqn:Eco;
    [|intros [= <-]; right; right; right; left;
      exact (class_attribute_raises _ _ _ _ Eco)].
  destruct (update_stats d) as [[[ad de] to]|e0] eqn:Est;
    [discriminate|].
  intros [= <-]. right; right; right; right.
  exact (update_stats_raises _ _ Est).
Qed.

(** X3: the three counters are set together.  On every constructed object
    either stats was missing or falsy and all three are 0, or stats was a
    non-empty object and all three are what it gives under their keys (null
    for a key it lacks); there is no mix of defaults and payload values. *)
Theorem counters_set_together d c :
  new d = Ok c ->
  (absent_or_falsy d $"stats"
   /\ additions c = JInt 0 /\ deletions c = JInt 0 /\ total c = JInt 0)
  \/ (exists s,
        dict_get d $"stats" = Some (JDict s) /\ s <> []
        /\ additions c = _get_attribute s $"additions" JNull
        /\ deletions c = _get_attribute s $"deletions" JNull
        /\ total c = _get_attribute s $"total" JNull).
Proof.
  intros H. apply update_attributes_inv in H.
  destruct H as (_ & _ & _ & _ & _ & Hst & _).
  destruct (dict_get d $"stats") as [v|] eqn:Hv.
  - destruct (truthy v) eqn:Ht.
    + destruct v as [|b|n|t|l|s];
        try (rewrite (update_stats_non_object d _ Hv Ht) in Hst
               by (intros ?; discriminate); discriminate).
      assert (Hne : s <> []) by (intros ->; discriminate).
      rewrite (update_stats_object d s Hv Hne) in Hst.
      injection Hst as <- <- <-. right. exists s.
      repeat split; auto.
    + left. assert (F : absent_or_falsy d $"stats") by (right; eauto).
      rewrite (update_stats_falsy _ F) in Hst.
      injection Hst as <- <- <-. auto.
  - left. assert (F : absent_or_falsy d $"stats") by (left; exact Hv).
    rewrite (update_stats_falsy _ F) in Hst.
    injection Hst as <- <- <-. auto.
Qed.

(** X4: construction looks at the payload through six keys only (author,
    committer, commit, sha, stats, files) and through the parent
    initialiser: two payloads that agree on these keys and on which the
    parent gives the same outcome construct the same object or raise the
    same exception. *)
Theorem construction_reads_six_keys d d' :
  agree_on read_keys d d' ->
  BaseCommit_update_attributes d = BaseCommit_update_attributes d' ->
  new d = new d'.
Proof.
  intros A B. unfold new, _update_attributes, _class_attribute, _get_attribute.
  rewrite B, (update_stats_agree d d') by (apply A; simpl; auto 10).
  rewrite (A $"author"), (A $"committer"), (A $"commit"), (A $"sha"),
    (A $"files") by (simpl; auto 10).
  reflexivity.
Qed.

(** X5: [message] is derived from the commit sub-object alone.  It is null
    when the commit key is missing or null; when the ShortCommit constructor
    accepts the fragment, [commit] is that instance and [message] is the
    instance's message, or null when it has none. *)
Theorem message_mirrors_commit d c :
  new d = Ok c ->
  (missing d $"commit" \/ dict_get d $"commit" = Some JNull ->
   commit c = Raw JNull /\ message c = JNull)
  /\ (forall v t,
        dict_get d $"commit" = Some v -> v <> JNull ->
        ShortCommit_new v = Ok t ->
        commit c = Inst t
        /\ message c
           = match ShortCommit_message t with Some m => m | None => JNull end).
Proof.
  intros H. apply update_attributes_inv in H.
  destruct H as (_ & _ & _ & Hco & _ & _ & _ & _ & Hm).
  split.
  - intros M. rewrite (class_attribute_null _ _ _ M) in Hco.
    injection Hco as Hco. rewrite Hm, <- Hco. split; reflexivity.
  - intros v t Hv Hn Ht.
    rewrite (class_attribute_inst _ _ _ _ _ Hv Hn Ht) in Hco.
    injection Hco as Hco. rewrite Hm, <- Hco. split; reflexivity.
Qed.

End ConstructionMore.

(** ** More on the methods: requests, errors, empty results *)

Lemma body_or_empty_nothing resp :
  body_or_empty resp = Ok []
  <-> status_code resp = 404
      \/ (status_code resp = 200 /\ content resp = []).
Proof.
  unfold body_or_empty.
  destruct (Z.eqb_spec (status_code resp) 200) as [E|N].
  - split.
    + intros [= H]. right. auto.
    + intros [H | [_ H]]; [congruence | rewrite H; reflexivity].
  - destruct (Z.eqb_spec (status_code resp) 404) as [E|N'].
    + split; [left; exact E | reflexivity].
    + split; [discriminate | intros [H | [H _]]; contradiction].
Qed.

Section MethodsMore.

Variables ShortUser ShortCommit CombinedStatus Status RepoComment : Type.
Variable CombinedStatus_new : json -> result CombinedStatus.
Variable Status_new : json -> result Status.
Variable RepoComment_new : json -> result RepoComment.
Variable self : RepoCommit ShortUser ShortCommit.

(** X6: whatever the session answers, and whatever was sent before,
    [diff()], [patch()] and [status()] each send exactly one request (to the
    commit's URL with the diff media type, to the commit's URL with the
    patch media type, to the URL followed by [/status] with no header of
    their own), also when they end in an exception; [statuses()] and
    [comments()] send nothing when they are called. *)
Theorem requests_sent_by_each_method session log number etag :
  snd (diff session self log)
    = log ++ [mkRequest (_api self)
                [($"Accept", $"application/vnd.github.diff")]]
  /\ snd (patch session self log)
     = log ++ [mkRequest (_api self)
                 [($"Accept", $"application/vnd.github.patch")]]
  /\ snd (status CombinedStatus_new session self log)
     = log ++ [mkRequest (_api self ++ $"/status") []]
  /\ snd (statuses Status_new self log) = log
  /\ snd (comments RepoComment_new self number etag log) = log.
Proof.
  repeat match goal with |- _ /\ _ => split end.
  - unfold diff, bind, _get, lift, ret.
    destruct (session _) as [resp|e]; [|reflexivity].
    destruct (_boolean resp 200 404); reflexivity.
  - unfold patch, bind, _get, lift, ret.
    destruct (session _) as [resp|e]; [|reflexivity].
    destruct (_boolean resp 200 404); reflexivity.
  - unfold status, bind, _get, lift, _build_url.
    destruct (session _) as [resp|e]; [|reflexivity].
    destruct (_json resp 200); reflexivity.
  - reflexivity.
  - unfold comments, bind, lift, ret.
    destruct (py_int number); reflexivity.
Qed.

(** X7: an exception raised by the session itself (the transport) comes
    out of [diff()], [patch()] and [status()] unchanged: none of them
    catches anything. *)
Theorem transport_errors_pass_through session e :
  (session (mkRequest (_api self) Accept_diff) = Raise e ->
   fst (run (diff session self)) = Raise e)
  /\ (session (mkRequest (_api self) Accept_patch) = Raise e ->
      fst (run (patch session self)) = Raise e)
  /\ (session (mkRequest (_api self ++ $"/status") []) = Raise e ->
      fst (run (status CombinedStatus_new session self)) = Raise e).
Proof.
  repeat match goal with |- _ /\ _ => split end; intros H.
  - rewrite run_diff, H. reflexivity.
  - rewrite run_patch, H. reflexivity.
  - rewrite run_status, H. reflexivity.
Qed.

(** X8: [diff()] and [patch()] return the empty bytes in two situations
    that the caller cannot tell apart: a 404, and a 200 whose body is
    empty; in no other situation. *)
Theorem empty_result_is_ambiguous session rd rp :
  session (mkRequest (_api self) Accept_diff) = Ok rd ->
  session (mkRequest (_api self) Accept_patch) = Ok rp ->
  (fst (run (diff session self)) = Ok []
   <-> status_code rd = 404 \/ (status_code rd = 200 /\ content rd = []))
  /\ (fst (run (patch session self)) = Ok []
      <-> status_code rp = 404
          \/ (status_code rp = 200 /\ content rp = [])).
Proof.
  intros Hd Hp. rewrite run_diff, run_patch, Hd, Hp. simpl.
  split; apply body_or_empty_nothing.
Qed.

(** X9: [statuses()] returns, without sending anything, the lazy sequence
    over the commit's URL followed by [/statuses], with the count -1 and no
    etag: the same count and token as [comments()] called with its
    defaults.  Run to its end it yields every item of the listing. *)
Theorem statuses_contract listing :
  exists it,
    run (statuses Status_new self) = (Ok it, [])
    /\ it_url it = _api self ++ $"/statuses"
    /\ it_count it = -1
    /\ it_etag it = None
    /\ yielded listing it
       = map Status_new
           (List.concat (listing (_api self ++ $"/statuses") None))
    /\ exists ic,
         run (comments RepoComment_new self (JInt (-1)) None) = (Ok ic, [])
         /\ it_count ic = it_count it /\ it_etag ic = it_etag it
         /\ it_url ic = _api self ++ $"/comments".
Proof.
  eexists. split; [reflexivity|].
  repeat match goal with |- _ /\ _ => split end; try reflexivity.
  eexists. repeat split.
Qed.

End MethodsMore.

(** ** More on the representation and on identity *)

Lemma Ok_inj {A} (a b : A) : Ok a = Ok b -> a = b.
Proof. intros [= H]. exact H. Qed.

Section ReprMore.

Variables ShortUser ShortCommit : Type.
Variable ShortUser_new : json -> result ShortUser.
Variable ShortCommit_new : json -> result ShortCommit.
Variable ShortCommit_message : ShortCommit -> option json.
Variable BaseCommit_update_attributes : dict -> result str.
Variable py_str_list : list json -> str.
Variable py_hash : json -> result Z.

Lemma repr_of_str (self : RepoCommit ShortUser ShortCommit) s :
  sha self = JStr s ->
  _repr py_str_list self = Ok (repr_head ++ firstn 7 s ++ repr_tail).
Proof. intros H. unfold _repr. rewrite H. reflexivity. Qed.

(** X10: for a string sha the representation has 22 characters plus the
    length of the sha, capped at 7, so 29 at most; a sha of at most 7
    characters appears in it whole. *)
Theorem repr_length (self : RepoCommit ShortUser ShortCommit) s :
  sha self = JStr s ->
  exists r,
    _repr py_str_list self = Ok r
    /\ List.length r = (22 + Nat.min 7 (List.length s))%nat
    /\ (List.length r <= 29)%nat
    /\ ((List.length s <= 7)%nat ->
        r = $"<Repository Commit [" ++ s ++ $"]>" /\ contains r s = true).
Proof.
  intros H. eexists. split; [exact (repr_of_str _ _ H)|].
  assert (L : List.length (repr_head ++ firstn 7 s ++ repr_tail)
              = (22 + Nat.min 7 (List.length s))%nat).
  { rewrite !length_app, length_firstn. simpl. lia. }
  repeat match goal with |- _ /\ _ => split end.
  - exact L.
  - rewrite L. lia.
  - intros Hs. rewrite (firstn_all2 s Hs). split; [reflexivity|].
    apply contains_app.
Qed.

(** X11: two objects with string shas have the same representation exactly
    when the shas agree on their first 7 characters; the representation
    does not tell apart commits whose shas differ later. *)
Theorem repr_same_iff_short_sha (a b : RepoCommit ShortUser ShortCommit)
  s1 s2 :
  sha a = JStr s1 ->
  sha b = JStr s2 ->
  (_repr py_str_list a = _repr py_str_list b
   <-> firstn 7 s1 = firstn 7 s2).
Proof.
  intros H1 H2. rewrite (repr_of_str _ _ H1), (repr_of_str _ _ H2). split.
  - intros E. apply Ok_inj, app_inv_head, app_inv_tail in E. exact E.
  - intros ->. reflexivity.
Qed.

(** X12: constructed objects that compare equal (shas being strings or
    null) are interchangeable for the other two operations built on the
    sha: they have the same hash and the same representation (or both
    representations raise); equality does not depend on the side. *)
Theorem equal_commits_interchangeable d1 d2 c1 c2 :
  _update_attributes ShortUser_new ShortCommit_new ShortCommit_message
    BaseCommit_update_attributes d1 = Ok c1 ->
  _update_attributes ShortUser_new ShortCommit_new ShortCommit_message
    BaseCommit_update_attributes d2 = Ok c2 ->
  is_sha (sha c1) = true ->
  is_sha (sha c2) = true ->
  __eq__ c1 c2 = true ->
  __hash__ py_hash c1 = __hash__ py_hash c2
  /\ _repr py_str_list c1 = _repr py_str_list c2
  /\ __eq__ c2 c1 = true.
Proof.
  intros N1 N2 S1 S2 E.
  apply update_attributes_inv in N1, N2.
  destruct N1 as (_ & _ & _ & _ & _ & _ & _ & U1 & _).
  destruct N2 as (_ & _ & _ & _ & _ & _ & _ & U2 & _).
  unfold __eq__, __hash__, _repr in *. rewrite U1, U2 in *.
  apply (py_eq_sha _ _ S1 S2) in E. rewrite E.
  repeat split. apply (py_eq_sha _ _ S2 S2). reflexivity.
Qed.

End ReprMore.

(** ** The further statements at work *)

Lemma construction_rejects_non_object_stats_witness :
  Mock.new Run.bad_stats = Raise AttributeError.
Proof.
  apply (construction_rejects_non_object_stats _ _ Mock.only_dicts
           Mock.only_dicts Mock.message_key Mock.base Run.bad_stats
           $"https://api.github.com/repos/o/r/commits/x" (JInt 5)
           eq_refl I I I eq_refl eq_refl).
  intros s. discriminate.
Defined.

Lemma construction_error_origin_witness :
  exists v, dict_get Run.bad_stats $"stats" = Some v /\ truthy v = true.
Proof.
  destruct (construction_error_origin _ _ Mock.only_dicts Mock.only_dicts
              Mock.message_key Mock.base Run.bad_stats AttributeError
              eq_refl)
    as [H | [(v & H & _) | [(v & H & _) | [(v & H & _) | (_ & v & H & T & _)]]]];
    try discriminate H.
  exists v. split; assumption.
Defined.

Lemma counters_set_together_witness :
  exists c, Mock.new Run.half_counted = Ok c
    /\ additions c <> JInt 0 /\ deletions c <> JInt 0 /\ total c <> JInt 0.
Proof.
  eexists. split; [vm_compute; reflexivity|].
  destruct (counters_set_together _ _ Mock.only_dicts Mock.only_dicts
              Mock.message_key Mock.base Run.half_counted _ eq_refl)
    as [(_ & A & _) | (s & Hs & _ & A & D & T)].
  - vm_compute in A. discriminate A.
  - repeat split; intros E; vm_compute in E; discriminate E.
Defined.

Lemma construction_reads_six_keys_witness :
  Mock.new Run.bare = Mock.new Run.bare_and_more.
Proof.
  apply (construction_reads_six_keys _ _ Mock.only_dicts Mock.only_dicts
           Mock.message_key Mock.base Run.bare Run.bare_and_more).
  - intros k Hk. simpl in Hk.
    repeat (destruct Hk as [<- | Hk]; [reflexivity|]). contradiction.
  - reflexivity.
Defined.

Lemma message_mirrors_commit_witness :
  exists c, Mock.new Run.with_message = Ok c
    /\ message c = JStr $"fix typo".
Proof.
  eexists. split; [vm_compute; reflexivity|].
  apply (proj2 (message_mirrors_commit _ _ Mock.only_dicts Mock.only_dicts
                  Mock.message_key Mock.base Run.with_message _ eq_refl)
           (JDict [($"message", JStr $"fix typo")])
           (JDict [($"message", JStr $"fix typo")]));
    [reflexivity | discriminate | reflexivity].
Defined.

Lemma transport_errors_pass_through_witness :
  fst (run (diff (fun _ => Raise (OtherError $"timeout")) Run.self))
    = Raise (OtherError $"timeout")
  /\ fst (run (status Mock.only_dicts
                 (fun _ => Raise (OtherError $"timeout")) Run.self))
     = Raise (OtherError $"timeout").
Proof.
  destruct (transport_errors_pass_through _ _ _ Mock.only_dicts Run.self
              (fun _ => Raise (OtherError $"timeout"))
              (OtherError $"timeout")) as (Hd & _ & Hs).
  split; [apply Hd | apply Hs]; reflexivity.
Defined.

Lemma empty_result_is_ambiguous_witness :
  fst (run (diff (Mock.reply 200 [] (Raise ValueError)) Run.self))
  = fst (run (diff (Mock.reply 404 $"Not Found" (Raise ValueError)) Run.self)).
Proof.
  transitivity (@Ok bytes []).
  - apply (proj1 (empty_result_is_ambiguous _ _ Run.self
                    (Mock.reply 200 [] (Raise ValueError))
                    (mkResponse 200 [] _) (mkResponse 200 [] _)
                    eq_refl eq_refl)).
    right. split; reflexivity.
  - symmetry.
    apply (proj1 (empty_result_is_ambiguous _ _ Run.self
                    (Mock.reply 404 $"Not Found" (Raise ValueError))
                    (mkResponse 404 $"Not Found" _)
                    (mkResponse 404 $"Not Found" _) eq_refl eq_refl)).
    left. reflexivity.
Defined.

Lemma repr_length_witness :
  exists r, _repr Mock.str_list (Mock.with_sha (JStr $"abc")) = Ok r
    /\ r = $"<Repository Commit [abc]>" /\ List.length r = 25%nat.
Proof.
  destruct (repr_length _ _ Mock.str_list (Mock.with_sha (JStr $"abc"))
              $"abc" eq_refl) as (r & Hr & Hl & _ & Hw).
  exists r. split; [exact Hr|]. split; [|exact Hl].
  apply Hw. simpl. lia.
Defined.

Lemma repr_same_iff_short_sha_witness :
  _repr Mock.str_list Run.self = _repr Mock.str_list Run.sibling
  /\ __eq__ Run.self Run.sibling = false.
Proof.
  split; [|reflexivity].
  apply (repr_same_iff_short_sha _ _ Mock.str_list Run.self Run.sibling
           $"abcdef1234567890" $"abcdef1fffffffff" eq_refl eq_refl).
  reflexivity.
Defined.

Lemma equal_commits_interchangeable_witness :
  exists c1 c2,
    Mock.new Run.counted = Ok c1 /\ Mock.new Run.authored = Ok c2
    /\ c1 <> c2
    /\ _repr Mock.str_list c1 = _repr Mock.str_list c2.
Proof.
  eexists. eexists.
  split; [vm_compute; reflexivity|]. split; [vm_compute; reflexivity|].
  split; [discriminate|].
  apply (equal_commits_interchangeable _ _ Mock.only_dicts Mock.only_dicts
           Mock.message_key Mock.base Mock.str_list (fun _ => Ok 0)
           Run.counted Run.authored _ _ eq_refl eq_refl eq_refl eq_refl
           eq_refl).
Defined.
